(** * Augmentation operators of [data/augmentations.py]

    A shallow embedding of the operator catalog and of the shared dispatch
    routine [_BaseAugmentationOp.__call__], together with the properties of
    the dispatch contract (magnitude validation, random sign mirror,
    delegation) and of the individual transformations.

    Python [float] is IEEE-754 binary64; it is modelled by the Standard
    Library's [spec_float] at precision 53 and maximal exponent 1024, whose
    operations are plain Rocq functions. *)

From Stdlib Require Import ZArith List Bool Lia.
From Stdlib Require Import QArith Qround Qpower.
From Stdlib Require Import Floats.
Import ListNotations.

Set Warnings "-inexact-float".
Local Open Scope Z_scope.

(** ** Python floats *)

Definition float : Type := spec_float.

Module Float64.

Definition prec : Z := 53.
Definition emax : Z := 1024.

(** A float literal of the source, read as the nearest binary64 value. *)
Definition lit (x : PrimFloat.float) : float := Prim2SF x.

(** Unary minus, [x * y], [x + y]. *)
Definition neg (x : float) : float := SFopp x.
Definition mul (x y : float) : float := SFmul prec emax x y.
Definition add (x y : float) : float := SFadd prec emax x y.

(** [x <= y], [x < y], [x == y]; every comparison with NaN is false. *)
Definition leb (x y : float) : bool := SFleb x y.
Definition ltb (x y : float) : bool := SFltb x y.
Definition eqb (x y : float) : bool := SFeqb x y.

Definition is_nan (x : float) : bool :=
  match x with S754_nan => true | _ => false end.

Definition is_finite (x : float) : bool :=
  match x with S754_zero _ | S754_finite _ _ _ => true | _ => false end.

(** Well-formed binary64 values: canonical mantissa, bounded exponent. *)
Definition valid (x : float) : bool := SpecFloat.valid_binary prec emax x.

(** Conversion of a Python [int] to [float] (round to nearest even), as
    done implicitly by [float * int] and by comparisons with small
    integer constants. *)
Definition of_int (z : Z) : float := binary_normalize prec emax z 0 false.

(** Truncation toward zero of a finite float: the value of [int(x)] and of
    a C cast to an integer type. *)
Definition trunc (x : float) : option Z :=
  match x with
  | S754_zero _ => Some 0
  | S754_finite s m e => Some (cond_Zopp s (Z.shiftl (Zpos m) e))
  | S754_infinity _ | S754_nan => None
  end.

(** The exact rational value of a finite float. *)
Definition to_Q (x : float) : option Q :=
  match x with
  | S754_zero _ => Some (0 # 1)%Q
  | S754_finite s m e =>
      Some (inject_Z (cond_Zopp s (Zpos m)) * Qpower (2 # 1) e)%Q
  | S754_infinity _ | S754_nan => None
  end.

(** The mathematical floor of a finite float. *)
Definition floor (x : float) : option Z := option_map Qfloor (to_Q x).

End Float64.

(** The float constants that occur in the source. Integer constants that are
    compared with a float magnitude ([0], [10], [30], [256], [255]) are the
    floats of the same value: Python compares an [int] with a [float] by
    exact value, and these integers are exactly representable. *)
Definition f_0_1 : float := Eval vm_compute in Float64.lit 0.1.
Definition f_0_3 : float := Eval vm_compute in Float64.lit 0.3.
Definition f_0_45 : float := Eval vm_compute in Float64.lit 0.45.
Definition f_0_5 : float := Eval vm_compute in Float64.lit 0.5.
Definition f_1_9 : float := Eval vm_compute in Float64.lit 1.9.
Definition f_0 : float := Eval vm_compute in Float64.of_int 0.
Definition f_10 : float := Eval vm_compute in Float64.of_int 10.
Definition f_20 : float := Eval vm_compute in Float64.of_int 20.
Definition f_30 : float := Eval vm_compute in Float64.of_int 30.
Definition f_255 : float := Eval vm_compute in Float64.of_int 255.
Definition f_256 : float := Eval vm_compute in Float64.of_int 256.

(** ** Images and the external image library *)

(** A Python number as it is passed to the image library: the source mixes
    [int] constants and [float] magnitudes in one tuple. *)
Inductive pynum : Type :=
| PyInt (z : Z)
| PyFloat (x : float).

(** A PIL image with 8-bit channels: its [size] is [(width, height)], its
    [data] the channel values in row-major order, the bands of a pixel side
    by side. *)
Record Image : Type := mkImage {
  size : Z * Z;
  data : list Z
}.

(** Every channel value is an 8-bit value. *)
Definition wf_image (img : Image) : Prop :=
  Forall (fun v => 0 <= v <= 255) (data img).

(** The coefficients [(a, b, c, d, e, f)] of [PIL.Image.AFFINE]. *)
Definition affine : Type := (pynum * pynum * pynum * pynum * pynum * pynum)%type.

(** The primitives of the image library that the operators call and whose
    pixel-level result this development leaves open. *)
Class PIL : Type := {
  (** [img.transform(size, PIL.Image.AFFINE, data)] *)
  Image_transform : Image -> Z * Z -> affine -> Image;
  (** [img.rotate(angle)] *)
  Image_rotate : Image -> float -> Image;
  ImageOps_autocontrast : Image -> Image;
  ImageOps_equalize : Image -> Image;
  ImageOps_flip : Image -> Image;
  (** [PIL.ImageOps.solarize(img, threshold)] *)
  ImageOps_solarize : Image -> pynum -> Image;
  (** The image that [PIL.ImageOps.posterize(img, bits)] returns when it
      returns one, that is for [bits <= 8]; see [ImageOps_posterize]. *)
  posterize_pixels : Image -> Z -> Image;
  (** [PIL.ImageEnhance.<Kind>(img).enhance(factor)] *)
  ImageEnhance_Contrast : Image -> float -> Image;
  ImageEnhance_Color : Image -> float -> Image;
  ImageEnhance_Brightness : Image -> float -> Image;
  ImageEnhance_Sharpness : Image -> float -> Image
}.

(** Modelled from the spec: [PIL.ImageOps.invert] belongs to the external
    image library; the specification documents it as "invert every pixel
    value: 255 - value per channel". *)
Definition ImageOps_invert (img : Image) : Image :=
  mkImage (size img) (map (fun v => 255 - v) (data img)).

(** ** numpy arrays, as far as [SolarizeAdd] uses them *)

Module np.

Inductive dtype : Type := int64 | float64 | uint8.

Definition elem (d : dtype) : Type :=
  match d with
  | int64 => Z
  | float64 => float
  | uint8 => Z
  end.

(** An array of a given [dtype]. Every operation used here is elementwise:
    the elements are kept in one list, in the order of [Image.data]. *)
Record ndarray (d : dtype) : Type := mk {
  shape : Z * Z;
  elems : list (elem d)
}.
Arguments mk {d} _ _.
Arguments shape {d} _.
Arguments elems {d} _.

(** [np.array(img, dtype=int)]: [height] rows of [width] pixels. *)
Definition array_int (img : Image) : ndarray int64 :=
  mk (d := int64) (snd (size img), fst (size img)) (data img).

(** [arr + m] for an integer array and a Python float [m]: the array is
    promoted to [float64] and [m] is added to every element. *)
Definition add_float (arr : ndarray int64) (m : float) : ndarray float64 :=
  mk (d := float64) (shape arr)
     (map (fun v => Float64.add (Float64.of_int v) m) (elems arr)).

(** The elementwise maximum and minimum behind [np.clip]: a NaN element is
    kept. *)
Definition max_ (a b : float) : float :=
  if Float64.is_nan a then a else if Float64.ltb b a then a else b.
Definition min_ (a b : float) : float :=
  if Float64.is_nan a then a else if Float64.ltb a b then a else b.

Definition clip1 (x : float) (lo hi : Z) : float :=
  min_ (max_ x (Float64.of_int lo)) (Float64.of_int hi).

(** [np.clip(arr, lo, hi)] on a [float64] array, with integer bounds. *)
Definition clip (arr : ndarray float64) (lo hi : Z) : ndarray float64 :=
  mk (d := float64) (shape arr) (map (fun x => clip1 x lo hi) (elems arr)).

(** The cast of one [float64] element to [uint8]: truncation toward zero,
    kept to 8 bits. The cast of NaN or of an infinity is left undefined by
    C; the usual platforms give 0. *)
Definition uint8_of_float (x : float) : Z :=
  match Float64.trunc x with
  | Some z => z mod 256
  | None => 0
  end.

(** [arr.astype(np.uint8)] on a [float64] array. *)
Definition astype_uint8 (arr : ndarray float64) : ndarray uint8 :=
  mk (d := uint8) (shape arr) (map uint8_of_float (elems arr)).

End np.

(** [PIL.Image.fromarray] on an array of 8-bit values. *)
Definition Image_fromarray (arr : np.ndarray np.uint8) : Image :=
  mkImage (snd (np.shape arr), fst (np.shape arr)) (np.elems arr).

(** ** Operators *)

(** The concrete classes derived from [_BaseAugmentationOp]. [SolarizeAdd]
    carries the attribute [threshold] that its constructor stores. *)
Inductive OpClass : Type :=
| ShearX | ShearY
| TranslateX | TranslateY
| TranslateXAbs | TranslateYAbs
| Rotate
| AutoContrast | Invert | Equalize | Flip
| Solarize
| SolarizeAdd (threshold : Z)
| Posterize
| Contrast | Color | Brightness | Sharpness
| Identity.

(** An operator instance: its class and the two attributes set by
    [_BaseAugmentationOp.__init__]. *)
Record Operator : Type := mkOp {
  class : OpClass;
  magnitude_limit : option (float * float);
  random_mirror : option bool
}.

(** [_BaseAugmentationOp.__init__], both arguments default to [None]. *)
Definition Base_init (c : OpClass)
    (magnitude_limit : option (float * float)) (random_mirror : option bool)
    : Operator :=
  mkOp c magnitude_limit random_mirror.

(** The constructors of the subclasses that define [__init__], and each
    class constructed with its default arguments. *)
Definition ShearX_init (magnitude_limit : float * float) (random_mirror : bool) :=
  Base_init ShearX (Some magnitude_limit) (Some random_mirror).
Definition ShearY_init (magnitude_limit : float * float) (random_mirror : bool) :=
  Base_init ShearY (Some magnitude_limit) (Some random_mirror).
Definition TranslateX_init (magnitude_limit : float * float) (random_mirror : bool) :=
  Base_init TranslateX (Some magnitude_limit) (Some random_mirror).
Definition TranslateY_init (magnitude_limit : float * float) (random_mirror : bool) :=
  Base_init TranslateY (Some magnitude_limit) (Some random_mirror).
Definition TranslateXAbs_init (magnitude_limit : float * float) (random_mirror : bool) :=
  Base_init TranslateXAbs (Some magnitude_limit) (Some random_mirror).
Definition TranslateYAbs_init (magnitude_limit : float * float) (random_mirror : bool) :=
  Base_init TranslateYAbs (Some magnitude_limit) (Some random_mirror).
Definition Rotate_init (magnitude_limit : float * float) (random_mirror : bool) :=
  Base_init Rotate (Some magnitude_limit) (Some random_mirror).
Definition Solarize_init (magnitude_limit : float * float) :=
  Base_init Solarize (Some magnitude_limit) None.
Definition SolarizeAdd_init (threshold : Z) :=
  Base_init (SolarizeAdd threshold) None None.
Definition Contrast_init (magnitude_limit : float * float) :=
  Base_init Contrast (Some magnitude_limit) None.
Definition Color_init (magnitude_limit : float * float) :=
  Base_init Color (Some magnitude_limit) None.
Definition Brightness_init (magnitude_limit : float * float) :=
  Base_init Brightness (Some magnitude_limit) None.
Definition Sharpness_init (magnitude_limit : float * float) :=
  Base_init Sharpness (Some magnitude_limit) None.

Definition ShearX_default : Operator :=
  ShearX_init (Float64.neg f_0_3, f_0_3) true.
Definition ShearY_default : Operator :=
  ShearY_init (Float64.neg f_0_3, f_0_3) true.
Definition TranslateX_default : Operator :=
  TranslateX_init (Float64.neg f_0_45, f_0_45) true.
Definition TranslateY_default : Operator :=
  TranslateY_init (Float64.neg f_0_45, f_0_45) true.
Definition TranslateXAbs_default : Operator :=
  TranslateXAbs_init (f_0, f_10) true.
Definition TranslateYAbs_default : Operator :=
  TranslateYAbs_init (f_0, f_10) true.
Definition Rotate_default : Operator :=
  Rotate_init (Float64.neg f_30, f_30) true.
Definition AutoContrast_default : Operator := Base_init AutoContrast None None.
Definition Invert_default : Operator := Base_init Invert None None.
Definition Equalize_default : Operator := Base_init Equalize None None.
Definition Flip_default : Operator := Base_init Flip None None.
Definition Solarize_default : Operator := Solarize_init (f_0, f_256).
Definition SolarizeAdd_default : Operator := SolarizeAdd_init 128.
Definition Posterize_default : Operator := Base_init Posterize None None.
Definition Contrast_default : Operator := Contrast_init (f_0_1, f_1_9).
Definition Color_default : Operator := Color_init (f_0_1, f_1_9).
Definition Brightness_default : Operator := Brightness_init (f_0_1, f_1_9).
Definition Sharpness_default : Operator := Sharpness_init (f_0_1, f_1_9).
Definition Identity_default : Operator := Base_init Identity None None.

(** The catalog: every class constructed with its default arguments. *)
Definition catalog : list Operator :=
  [ ShearX_default; ShearY_default; TranslateX_default; TranslateY_default;
    TranslateXAbs_default; TranslateYAbs_default; Rotate_default;
    AutoContrast_default; Invert_default; Equalize_default; Flip_default;
    Solarize_default; SolarizeAdd_default; Posterize_default;
    Contrast_default; Color_default; Brightness_default; Sharpness_default;
    Identity_default ].

(** ** Exceptions, interpreter state and the monad of method bodies *)

Inductive PyExn : Type :=
(** [ValueError('Value of m exceeded the limitation: ...')] raised by
    [__call__], the InvalidMagnitude error of the specification; it carries
    the three values that the message formats. *)
| ValueError_magnitude (min_magnitude magnitude max_magnitude : float)
(** [int(nan)] and [int(inf)] *)
| ValueError_int_of_nan
| OverflowError_int_of_inf
(** The TypeError of [PIL.ImageOps.posterize] for more than 8 bits. *)
| TypeError_posterize_bits.

(** What a call can read or change: the operator object it is invoked on,
    the module-level generator behind [random.random()] (the sequence of
    values it will return, and how many of them have been consumed), and a
    ghost record of the invocations of [_apply_transformation], latest
    first. *)
Record PyState : Type := mkState {
  self : Operator;
  random_draws : nat -> float;
  random_count : nat;
  applied : list (Image * float)
}.

Definition M (A : Type) : Type := PyState -> (PyExn + A) * PyState.

Definition ret {A} (a : A) : M A := fun st => (inr a, st).

Definition bind {A B} (c : M A) (k : A -> M B) : M B :=
  fun st =>
    match c st with
    | (inr a, st') => k a st'
    | (inl e, st') => (inl e, st')
    end.

Definition raise {A} (e : PyExn) : M A := fun st => (inl e, st).

Notation "x <- c ;; k" := (bind c (fun x => k))
  (at level 61, c at next level, right associativity).
Notation "c ;;; k" := (bind c (fun _ => k))
  (at level 61, right associativity).

Definition get_self : M Operator := fun st => (inr (self st), st).

(** [random.random()]: the next value of the generator. *)
Definition random_random : M float :=
  fun st =>
    (inr (random_draws st (random_count st)),
     mkState (self st) (random_draws st) (S (random_count st)) (applied st)).

(** Ghost step at the entry of [_apply_transformation]. *)
Definition enter_apply (img : Image) (m : float) : M unit :=
  fun st =>
    (inr tt,
     mkState (self st) (random_draws st) (random_count st)
             ((img, m) :: applied st)).

(** [int(x)] on a float. *)
Definition int_ (x : float) : M Z :=
  match Float64.trunc x with
  | Some z => ret z
  | None =>
      raise (if Float64.is_nan x then ValueError_int_of_nan
             else OverflowError_int_of_inf)
  end.

(** [lo <= m < hi] *)
Definition in_range (lo m hi : float) : bool :=
  Float64.leb lo m && Float64.ltb m hi.

(** ** Vocabulary of the properties *)

(** The outcome is the InvalidMagnitude error. *)
Definition raised_InvalidMagnitude {A} (r : PyExn + A) : bool :=
  match r with
  | inl (ValueError_magnitude _ _ _) => true
  | _ => false
  end.

(** A range is configured and the magnitude is outside of it. *)
Definition out_of_limit (op : Operator) (m : float) : bool :=
  match magnitude_limit op with
  | Some (lo, hi) => negb (in_range lo m hi)
  | None => false
  end.

(** The sign mirror is switched on: the attribute is truthy. *)
Definition mirror_enabled (op : Operator) : bool :=
  match random_mirror op with
  | Some true => true
  | Some false | None => false
  end.

(** The state after one draw has been consumed. *)
Definition after_draw (st : PyState) : PyState :=
  mkState (self st) (random_draws st) (S (random_count st)) (applied st).

(** The state after [_apply_transformation img m] has been entered. *)
Definition after_apply (img : Image) (m : float) (st : PyState) : PyState :=
  mkState (self st) (random_draws st) (random_count st)
          ((img, m) :: applied st).

(** The value that the next [random.random()] returns. *)
Definition next_draw (st : PyState) : float :=
  random_draws st (random_count st).

(** The magnitude that [__call__] hands to the transformation when the
    mirror is on and the draw is [r]. *)
Definition mirrored (r m : float) : float :=
  if Float64.ltb f_0_5 r then Float64.neg m else m.

(** Posterize, in the words of the specification: the number of bits is
    [max(1, floor(m))]. *)
Definition posterize_bits_spec (m : float) : option Z :=
  option_map (Z.max 1) (Float64.floor m).

(** SolarizeAdd, in the words of the specification, for one channel value:
    add [m], clamp to [0, 255], convert back to an 8-bit value. *)
Definition add_clamp (v : Z) (m : float) : Z :=
  np.uint8_of_float (np.clip1 (Float64.add (Float64.of_int v) m) 0 255).

(** The same on integers, for a magnitude that is the integer [k]. *)
Definition add_clamp_int (v k : Z) : Z := Z.min (Z.max (v + k) 0) 255.

(** What an 8-bit addition would give instead. *)
Definition add_wrap8 (v k : Z) : Z := (v + k) mod 256.

Section Operators.

Context {pil : PIL}.

(** [PIL.ImageOps.posterize(img, bits)]. The library builds its mask as
    [~(2 ** (8 - bits) - 1)]: for [bits > 8] the power is a float and [~]
    raises TypeError; for [bits <= 8] the call returns an image. *)
Definition ImageOps_posterize (img : Image) (bits : Z) : M Image :=
  if bits <=? 8 then ret (posterize_pixels img bits)
  else raise TypeError_posterize_bits.

(** The method [_apply_transformation] of each class. *)
Definition _apply_transformation (img : Image) (m : float) : M Image :=
  enter_apply img m ;;;
  self <- get_self ;;
  match class self with
  | ShearX =>
      ret (Image_transform img (size img)
             (PyInt 1, PyFloat m, PyInt 0, PyInt 0, PyInt 1, PyInt 0))
  | ShearY =>
      ret (Image_transform img (size img)
             (PyInt 1, PyInt 0, PyInt 0, PyFloat m, PyInt 1, PyInt 0))
  | TranslateX =>
      let m := Float64.mul m (Float64.of_int (fst (size img))) in
      ret (Image_transform img (size img)
             (PyInt 1, PyInt 0, PyFloat m, PyInt 0, PyInt 1, PyInt 0))
  | TranslateY =>
      let m := Float64.mul m (Float64.of_int (snd (size img))) in
      ret (Image_transform img (size img)
             (PyInt 1, PyInt 0, PyInt 0, PyInt 0, PyInt 1, PyFloat m))
  | TranslateXAbs =>
      ret (Image_transform img (size img)
             (PyInt 1, PyInt 0, PyFloat m, PyInt 0, PyInt 1, PyInt 0))
  | TranslateYAbs =>
      ret (Image_transform img (size img)
             (PyInt 1, PyInt 0, PyInt 0, PyInt 0, PyInt 1, PyFloat m))
  | Rotate => ret (Image_rotate img m)
  | AutoContrast => ret (ImageOps_autocontrast img)
  | Invert => ret (ImageOps_invert img)
  | Equalize => ret (ImageOps_equalize img)
  | Flip => ret (ImageOps_flip img)
  | Solarize => ret (ImageOps_solarize img (PyFloat m))
  | SolarizeAdd threshold =>
      let img := np.array_int img in
      let img := np.add_float img m in
      let img := np.clip img 0 255 in
      let img := np.astype_uint8 img in
      let img := Image_fromarray img in
      ret (ImageOps_solarize img (PyInt threshold))
  | Posterize =>
      k <- int_ m ;;
      let m := Z.max 1 k in
      ImageOps_posterize img m
  | Contrast => ret (ImageEnhance_Contrast img m)
  | Color => ret (ImageEnhance_Color img m)
  | Brightness => ret (ImageEnhance_Brightness img m)
  | Sharpness => ret (ImageEnhance_Sharpness img m)
  | Identity => ret img
  end.

(** [_BaseAugmentationOp.__call__], the [apply] of the specification. *)
Definition __call__ (img : Image) (magnitude : float) : M Image :=
  self <- get_self ;;
  match magnitude_limit self with
  | Some (min_magnitude, max_magnitude) =>
      if negb (in_range min_magnitude magnitude max_magnitude)
      then raise (ValueError_magnitude min_magnitude magnitude max_magnitude)
      else ret tt
  | None => ret tt
  end ;;;
  magnitude <-
    match random_mirror self with
    | Some true =>
        r <- random_random ;;
        ret (if Float64.ltb f_0_5 r then Float64.neg magnitude else magnitude)
    | Some false | None => ret magnitude
    end ;;
  _apply_transformation img magnitude.

(** What [__call__] does once the validation has passed. *)
Definition delegate (img : Image) (m : float) (st : PyState)
    : (PyExn + Image) * PyState :=
  if mirror_enabled (self st)
  then _apply_transformation img (mirrored (next_draw st) m) (after_draw st)
  else _apply_transformation img m st.

End Operators.

(** ** A sample image library and sample states, to run the model *)

(** Point operations follow their lookup tables; the resampling and
    enhancement primitives return the pixels they are given. *)
Definition sample_solarize (img : Image) (threshold : pynum) : Image :=
  let below v :=
    match threshold with
    | PyInt t => v <? t
    | PyFloat x => Float64.ltb (Float64.of_int v) x
    end in
  mkImage (size img) (map (fun v => if below v then v else 255 - v) (data img)).

Definition sample_posterize (img : Image) (bits : Z) : Image :=
  let mask := Z.land (Z.lnot (2 ^ (8 - bits) - 1)) 255 in
  mkImage (size img) (map (fun v => Z.land v mask) (data img)).

#[local] Instance sample_PIL : PIL := {|
  Image_transform := fun img _ _ => img;
  Image_rotate := fun img _ => img;
  ImageOps_autocontrast := fun img => img;
  ImageOps_equalize := fun img => img;
  ImageOps_flip := fun img => img;
  ImageOps_solarize := sample_solarize;
  posterize_pixels := sample_posterize;
  ImageEnhance_Contrast := fun img _ => img;
  ImageEnhance_Color := fun img _ => img;
  ImageEnhance_Brightness := fun img _ => img;
  ImageEnhance_Sharpness := fun img _ => img
|}.

(** A fresh interpreter state around [op] whose generator returns [r]. *)
Definition fresh (op : Operator) (r : float) : PyState :=
  mkState op (fun _ => r) 0 [].

(** A 2x1 grey image and a 100x1 grey image. *)
Definition img_2x1 : Image := mkImage (2, 1) [250; 100].
Definition img_100x1 : Image := mkImage (100, 1) (repeat 7 100).

Definition f_0_75 : float := Eval vm_compute in Float64.lit 0.75.
Definition f_0_25 : float := Eval vm_compute in Float64.lit 0.25.
Definition f_1 : float := Eval vm_compute in Float64.of_int 1.
Definition f_5 : float := Eval vm_compute in Float64.of_int 5.
Definition f_9 : float := Eval vm_compute in Float64.of_int 9.

(** The integers from [lo] on, [n] of them. *)
Definition Zrange (lo : Z) (n : nat) : list Z :=
  map (fun i => lo + Z.of_nat i) (seq 0 n).

(** [add_clamp] compared with the integer computation: for one channel
    value and every integral magnitude from -512 to 512. *)
Definition add_clamp_int_row (v : Z) : bool :=
  forallb (fun k => add_clamp v (Float64.of_int k) =? add_clamp_int v k)
          (Zrange (-512) 1025).


(** The classes whose [_apply_transformation] does not read [m]. *)
Definition ignores_magnitude (c : OpClass) : bool :=
  match c with
  | AutoContrast | Invert | Equalize | Flip | Identity => true
  | _ => false
  end.

(** The magnitude that an accepted call hands to the transformation. *)
Definition delegated_magnitude (st : PyState) (m : float) : float :=
  if mirror_enabled (self st) then mirrored (next_draw st) m else m.

(** [float('inf')] and [float('nan')]. *)
Definition f_inf : float := S754_infinity false.
Definition f_nan : float := S754_nan.

(** The default operators whose range is written with integer bounds in
    the source, each with these bounds. *)
Definition int_ranged_defaults : list (Operator * (Z * Z)) :=
  [ (TranslateXAbs_default, (0, 10)); (TranslateYAbs_default, (0, 10));
    (Rotate_default, (-30, 30)); (Solarize_default, (0, 256)) ].

(** The float test [lo <= k < hi] compared with the integer test, for one
    pair of bounds and every integral magnitude from -512 to 512. *)
Definition int_range_row (r : Z * Z) : bool :=
  forallb
    (fun k =>
       Bool.eqb
         (in_range (Float64.of_int (fst r)) (Float64.of_int k)
                   (Float64.of_int (snd r)))
         ((fst r <=? k) && (k <? snd r)))
    (Zrange (-512) 1025).

(** ** Floats: comparison and rounding facts *)

Lemma SFcompare_Eq_inv (x y : float) :
  SFcompare x y = Some Eq ->
  x = y \/ (exists s s', x = S754_zero s /\ y = S754_zero s').
Proof.
  destruct x as [s1| s1| |s1 m1 e1], y as [s2| s2| |s2 m2 e2]; simpl;
    try discriminate;
    try (destruct s1; discriminate); try (destruct s2; discriminate).
  - intros _. right. eauto.
  - destruct s1, s2; try discriminate; auto.
  - intros H. left.
    assert (s1 = s2 /\ e1 = e2 /\ m1 = m2) as (-> & -> & ->); [|reflexivity].
    destruct s1, s2; try discriminate;
      destruct (Z.compare_spec e1 e2) as [He|He|He]; try discriminate;
      rewrite Pos.compare_cont_spec in H; simpl in H;
      destruct (Pos.compare_spec m1 m2); try discriminate; auto.
Qed.

Lemma SFcompare_refl_eq (x : float) :
  Float64.is_nan x = false -> SFcompare x x = Some Eq.
Proof.
  destruct x as [s| s| |s m e]; simpl; try discriminate; intros _.
  - reflexivity.
  - destruct s; reflexivity.
  - rewrite Z.compare_refl, Pos.compare_cont_refl. destruct s; reflexivity.
Qed.


(** [m == lo] and [lo < hi] put [m] in [lo, hi). *)
Lemma eqb_lo_in_range (lo m hi : float) :
  Float64.eqb m lo = true -> Float64.ltb lo hi = true ->
  in_range lo m hi = true.
Proof.
  unfold Float64.eqb, SFeqb. intros Heq Hlt.
  destruct (SFcompare m lo) as [[| |]|] eqn:Hc; try discriminate.
  unfold in_range. apply andb_true_iff.
  destruct (SFcompare_Eq_inv _ _ Hc) as [->|(s & s' & -> & ->)].
  - split; [|exact Hlt].
    unfold Float64.leb, SFleb. rewrite Hc. reflexivity.
  - split; [reflexivity|].
    revert Hlt. unfold Float64.ltb, SFltb. destruct hi; simpl; auto.
Qed.


(** A magnitude above zero has its negation below zero. *)
Lemma neg_of_positive (m : float) :
  Float64.ltb f_0 m = true -> Float64.leb f_0 (Float64.neg m) = false.
Proof.
  destruct m as [s| s| |s p e]; simpl; try discriminate;
    destruct s; simpl; try discriminate; reflexivity.
Qed.

(** ** The dispatch routine *)

Section Dispatch.

Context {pil : PIL}.

(** The transformation itself touches the state only through its ghost
    entry record. *)
Lemma apply_state (img : Image) (m : float) (st : PyState) :
  snd (_apply_transformation img m st) = after_apply img m st.
Proof.
  unfold _apply_transformation, bind, enter_apply, get_self, after_apply.
  cbn [self]. destruct (class (self st)); try reflexivity.
  unfold int_, ImageOps_posterize. destruct (Float64.trunc m) as [k|];
    [|reflexivity].
  unfold ret. destruct (Z.max 1 k <=? 8); reflexivity.
Qed.

(** [__call__] by cases: validation first, then mirror and delegation. *)
Lemma call_cases (img : Image) (m : float) (st : PyState) :
  __call__ img m st =
  match magnitude_limit (self st) with
  | Some (lo, hi) =>
      if in_range lo m hi then delegate img m st
      else (inl (ValueError_magnitude lo m hi), st)
  | None => delegate img m st
  end.
Proof.
  unfold __call__, delegate, mirror_enabled, bind at 1 2, get_self.
  destruct (magnitude_limit (self st)) as [[lo hi]|].
  - destruct (in_range lo m hi); cbn [negb]; [|reflexivity].
    unfold ret at 1. destruct (random_mirror (self st)) as [[|]|]; reflexivity.
  - unfold ret at 1. destruct (random_mirror (self st)) as [[|]|]; reflexivity.
Qed.

(** The transformation never produces the InvalidMagnitude error. *)
Lemma apply_not_InvalidMagnitude (img : Image) (m : float) (st : PyState) :
  raised_InvalidMagnitude (fst (_apply_transformation img m st)) = false.
Proof.
  unfold _apply_transformation, bind, enter_apply, get_self.
  cbn [self]. destruct (class (self st)); try reflexivity.
  unfold int_, ImageOps_posterize. destruct (Float64.trunc m) as [k|].
  - unfold ret. destruct (Z.max 1 k <=? 8); reflexivity.
  - unfold raise. destruct (Float64.is_nan m); reflexivity.
Qed.

Lemma delegate_not_InvalidMagnitude (img : Image) (m : float) (st : PyState) :
  raised_InvalidMagnitude (fst (delegate img m st)) = false.
Proof.
  unfold delegate. destruct (mirror_enabled (self st));
    apply apply_not_InvalidMagnitude.
Qed.

(** The call raises InvalidMagnitude exactly when a range is configured and
    the magnitude is outside of it. *)
Lemma call_raises_iff (img : Image) (m : float) (st : PyState) :
  raised_InvalidMagnitude (fst (__call__ img m st)) = out_of_limit (self st) m.
Proof.
  rewrite call_cases. unfold out_of_limit.
  destruct (magnitude_limit (self st)) as [[lo hi]|].
  - destruct (in_range lo m hi); cbn [negb fst raised_InvalidMagnitude];
      [apply delegate_not_InvalidMagnitude | reflexivity].
  - apply delegate_not_InvalidMagnitude.
Qed.


(** The transformation of [Posterize]: [int(m)], at least one bit, the
    library call. *)
Lemma apply_posterize (img : Image) (d : float) (st : PyState) :
  class (self st) = Posterize ->
  fst (_apply_transformation img d st) =
  match Float64.trunc d with
  | None => inl (if Float64.is_nan d then ValueError_int_of_nan
                 else OverflowError_int_of_inf)
  | Some k => if Z.max 1 k <=? 8 then inr (posterize_pixels img (Z.max 1 k))
              else inl TypeError_posterize_bits
  end.
Proof.
  intros Hc. unfold _apply_transformation, bind, enter_apply, get_self.
  cbn [self]. rewrite Hc. unfold int_, ImageOps_posterize.
  destruct (Float64.trunc d) as [k|]; [|reflexivity].
  unfold ret. destruct (Z.max 1 k <=? 8); reflexivity.
Qed.


(** C2. With a configured range [(lo, hi)] and a magnitude outside of it,
    the call ends in InvalidMagnitude and leaves the whole state as it was:
    no draw has been consumed, the transformation has not been entered, the
    operator is unchanged. *)
Theorem out_of_range_raises_first
    (img : Image) (m lo hi : float) (st : PyState) :
  magnitude_limit (self st) = Some (lo, hi) ->
  in_range lo m hi = false ->
  __call__ img m st = (inl (ValueError_magnitude lo m hi), st) /\
  random_count (snd (__call__ img m st)) = random_count st /\
  applied (snd (__call__ img m st)) = applied st /\
  self (snd (__call__ img m st)) = self st.
Proof.
  intros Hl Hr.
  assert (__call__ img m st = (inl (ValueError_magnitude lo m hi), st)) as E.
  { rewrite call_cases, Hl, Hr. reflexivity. }
  rewrite E. repeat split.
Qed.

(** With the mirror on and the magnitude accepted, the call is the
    transformation on the mirrored magnitude, one draw later. *)
Lemma call_mirror_on (img : Image) (m : float) (st : PyState) :
  random_mirror (self st) = Some true ->
  out_of_limit (self st) m = false ->
  __call__ img m st =
  _apply_transformation img (mirrored (next_draw st) m) (after_draw st).
Proof.
  intros Hm Hl. rewrite call_cases. unfold out_of_limit in Hl.
  unfold delegate, mirror_enabled. rewrite Hm.
  destruct (magnitude_limit (self st)) as [[lo hi]|]; [|reflexivity].
  apply negb_false_iff in Hl. rewrite Hl. reflexivity.
Qed.

(** C4. With the mirror configured true and the magnitude accepted, the call
    consumes exactly one draw [r], enters the transformation once, with
    [-m] if [0.5 < r] and with [m] otherwise, returns its result, and leaves
    the operator with its configuration. *)
Theorem mirror_one_draw (img : Image) (m : float) (st : PyState) :
  random_mirror (self st) = Some true ->
  out_of_limit (self st) m = false ->
  let r := next_draw st in
  let m' := if Float64.ltb f_0_5 r then Float64.neg m else m in
  let st' := snd (__call__ img m st) in
  __call__ img m st = _apply_transformation img m' (after_draw st) /\
  random_count st' = S (random_count st) /\
  applied st' = (img, m') :: applied st /\
  self st' = self st /\
  magnitude_limit (self st') = magnitude_limit (self st) /\
  random_mirror (self st') = random_mirror (self st).
Proof.
  intros Hm Hl r m' st'.
  assert (__call__ img m st = _apply_transformation img m' (after_draw st)) as E.
  { exact (call_mirror_on img m st Hm Hl). }
  assert (st' = after_apply img m' (after_draw st)) as Est.
  { unfold st'. rewrite E. apply apply_state. }
  rewrite Est. repeat split. exact E.
Qed.

End Dispatch.

(** ** Truncation and floor *)

Lemma Qfloor_scaled (a e : Z) :
  Qfloor (inject_Z a * Qpower (2 # 1) e) =
  if 0 <=? e then a * 2 ^ e else a / 2 ^ (- e).
Proof.
  destruct (Z.leb_spec 0 e) as [He|He].
  - rewrite <- (Qfloor_Z (a * 2 ^ e)). apply Qfloor_comp.
    rewrite inject_Z_mult, Zpower_Qpower by assumption. reflexivity.
  - rewrite Zdiv_Qdiv. apply Qfloor_comp.
    rewrite Zpower_Qpower by lia. rewrite Qpower_opp.
    unfold Qdiv. rewrite Qinv_involutive. reflexivity.
Qed.

(** The floor of a finite float, on integers. *)
Lemma floor_finite (s : bool) (m : positive) (e : Z) :
  Float64.floor (S754_finite s m e) =
  Some (if 0 <=? e then cond_Zopp s (Zpos m) * 2 ^ e
        else cond_Zopp s (Zpos m) / 2 ^ (- e)).
Proof.
  unfold Float64.floor, Float64.to_Q, option_map.
  now rewrite Qfloor_scaled.
Qed.

(** The truncation of a finite float, on integers. *)
Lemma trunc_finite (s : bool) (m : positive) (e : Z) :
  Float64.trunc (S754_finite s m e) =
  Some (if 0 <=? e then cond_Zopp s (Zpos m * 2 ^ e)
        else cond_Zopp s (Zpos m / 2 ^ (- e))).
Proof.
  unfold Float64.trunc. f_equal.
  destruct (Z.leb_spec 0 e) as [He|He].
  - now rewrite Z.shiftl_mul_pow2.
  - now rewrite Z.shiftl_div_pow2 by lia.
Qed.

(** A finite float has a truncation and a floor. The floor is at most the
    truncation, they agree on floats that are not negative, and a negative
    float has neither above zero. *)
Lemma trunc_floor (x : float) :
  Float64.is_finite x = true ->
  exists t f,
    Float64.trunc x = Some t /\ Float64.floor x = Some f /\
    f <= t /\
    (Float64.leb f_0 x = true -> t = f) /\
    (Float64.leb f_0 x = false -> t <= 0).
Proof.
  destruct x as [s| s| |s m e]; try discriminate; intros _.
  - exists 0, 0. repeat split; try reflexivity; lia.
  - rewrite trunc_finite, floor_finite.
    assert (0 < 2 ^ (- e) \/ e >= 0) as Hp.
    { destruct (Z.leb_spec 0 e); [right; lia | left; apply Z.pow_pos_nonneg; lia]. }
    destruct (Z.leb_spec 0 e) as [He|He]; eexists; eexists;
      (split; [reflexivity|]); (split; [reflexivity|]).
    + destruct s; cbn [cond_Zopp]; repeat split; try lia;
        intros Hx; try discriminate Hx;
        pose proof (Z.pow_nonneg 2 e); nia.
    + destruct Hp as [Hp|Hp]; [|lia].
      pose proof (Z.div_pos (Zpos m) (2 ^ (- e)) ltac:(lia) Hp) as Hq.
      destruct s; cbn [cond_Zopp].
      * assert (Z.neg m / 2 ^ (- e) <= - (Z.pos m / 2 ^ (- e))) as Hle.
        { change (Z.neg m) with (- Z.pos m).
          pose proof (Z.div_mod (Z.pos m) (2 ^ (- e)) ltac:(lia)) as Hdm.
          pose proof (Z.mod_pos_bound (Z.pos m) (2 ^ (- e)) Hp) as Hb.
          apply Z.div_le_upper_bound; [exact Hp|]. nia. }
        repeat split; try lia; intros Hx; discriminate Hx.
      * repeat split; try lia; intros Hx; discriminate Hx.
Qed.

(** [max(1, int(m))] is the [max(1, floor(m))] of the specification. *)
Lemma posterize_bits (m : float) :
  Float64.is_finite m = true ->
  exists k, Float64.trunc m = Some k /\
            posterize_bits_spec m = Some (Z.max 1 k) /\
            1 <= Z.max 1 k.
Proof.
  intros Hf. destruct (trunc_floor m Hf) as (t & f & Ht & Hfl & Hle & Hpos & Hneg).
  exists t. split; [exact Ht|]. split; [|lia].
  unfold posterize_bits_spec. rewrite Hfl. cbn [option_map]. f_equal.
  destruct (Float64.leb f_0 m) eqn:Hs.
  - now rewrite (Hpos eq_refl).
  - specialize (Hneg eq_refl). lia.
Qed.

(** ** The transformations *)

Ltac run_apply Hc :=
  unfold _apply_transformation, bind, enter_apply, get_self;
  cbn [self]; rewrite Hc.

Section Transformations.

Context {pil : PIL}.

(** C5. [TranslateX] passes the affine coefficients [(1, 0, m * width, 0, 1, 0)]
    with the width of the image it is given, [TranslateXAbs] passes
    [(1, 0, m, 0, 1, 0)]; likewise [TranslateY] with the height and
    [TranslateYAbs]. At width 100 and [m = 0.1] the horizontal coefficient of
    [TranslateX] is exactly 10; [TranslateXAbs] with [m = 10] has the
    coefficient 10 on every image. *)
Theorem translate_coefficients (img : Image) (m : float) (st : PyState) :
  (class (self st) = TranslateX ->
   fst (_apply_transformation img m st) =
   inr (Image_transform img (size img)
          (PyInt 1, PyInt 0,
           PyFloat (Float64.mul m (Float64.of_int (fst (size img)))),
           PyInt 0, PyInt 1, PyInt 0))) /\
  (class (self st) = TranslateXAbs ->
   fst (_apply_transformation img m st) =
   inr (Image_transform img (size img)
          (PyInt 1, PyInt 0, PyFloat m, PyInt 0, PyInt 1, PyInt 0))) /\
  (class (self st) = TranslateY ->
   fst (_apply_transformation img m st) =
   inr (Image_transform img (size img)
          (PyInt 1, PyInt 0, PyInt 0, PyInt 0, PyInt 1,
           PyFloat (Float64.mul m (Float64.of_int (snd (size img))))))) /\
  (class (self st) = TranslateYAbs ->
   fst (_apply_transformation img m st) =
   inr (Image_transform img (size img)
          (PyInt 1, PyInt 0, PyInt 0, PyInt 0, PyInt 1, PyFloat m))) /\
  (class (self st) = TranslateX -> fst (size img) = 100 ->
   fst (_apply_transformation img f_0_1 st) =
   inr (Image_transform img (size img)
          (PyInt 1, PyInt 0, PyFloat f_10, PyInt 0, PyInt 1, PyInt 0))) /\
  (class (self st) = TranslateXAbs ->
   fst (_apply_transformation img f_10 st) =
   inr (Image_transform img (size img)
          (PyInt 1, PyInt 0, PyFloat f_10, PyInt 0, PyInt 1, PyInt 0))) /\
  (class (self st) = TranslateY -> snd (size img) = 100 ->
   fst (_apply_transformation img f_0_1 st) =
   inr (Image_transform img (size img)
          (PyInt 1, PyInt 0, PyInt 0, PyInt 0, PyInt 1, PyFloat f_10))) /\
  (class (self st) = TranslateYAbs ->
   fst (_apply_transformation img f_10 st) =
   inr (Image_transform img (size img)
          (PyInt 1, PyInt 0, PyInt 0, PyInt 0, PyInt 1, PyFloat f_10))).
Proof.
  repeat split; intros Hc; try intros Hw; run_apply Hc; try reflexivity;
    rewrite Hw; reflexivity.
Qed.

(** The conversion to an array and back keeps the size of the image. *)
Lemma fromarray_size (img : Image) (m : float) :
  size (Image_fromarray
          (np.astype_uint8 (np.clip (np.add_float (np.array_int img) m) 0 255)))
  = size img.
Proof. cbn. now destruct (size img). Qed.

(** The array pipeline of [SolarizeAdd] treats every channel value on its
    own, by [add_clamp]. *)
Lemma solarize_add_pipeline (img : Image) (m : float) :
  Image_fromarray
    (np.astype_uint8 (np.clip (np.add_float (np.array_int img) m) 0 255))
  = mkImage (size img) (map (fun v => add_clamp v m) (data img)).
Proof.
  unfold Image_fromarray. cbn [np.shape np.elems np.astype_uint8 np.clip
    np.add_float np.array_int fst snd].
  rewrite !map_map. now destruct (size img).
Qed.

(** The result of the cast is an 8-bit value. *)
Lemma add_clamp_8bit (v : Z) (m : float) : 0 <= add_clamp v m <= 255.
Proof.
  unfold add_clamp, np.uint8_of_float.
  destruct (Float64.trunc _) as [z|]; [|lia].
  pose proof (Z.mod_pos_bound z 256 ltac:(lia)). lia.
Qed.

(** C8. [Invert] maps every channel value [v] to [255 - v], and applying
    the operator twice, with any magnitude, gives back the image with the
    pixel data it had. *)
Theorem invert_involutive (img : Image) (m : float) (st : PyState) :
  self st = Invert_default ->
  (exists st1, __call__ img m st = (inr (ImageOps_invert img), st1)) /\
  data (ImageOps_invert img) = map (fun v => 255 - v) (data img) /\
  fst ((x <- __call__ img m ;; __call__ x m) st) = inr img.
Proof.
  intros Hs.
  assert (forall i s, self s = Invert_default ->
            __call__ i m s = (inr (ImageOps_invert i), after_apply i m s)) as E.
  { intros i s Hi. rewrite call_cases. unfold delegate, mirror_enabled.
    rewrite Hi. cbn [magnitude_limit random_mirror Invert_default Base_init].
    assert (class (self s) = Invert) as Hc by now rewrite Hi.
    run_apply Hc. reflexivity. }
  split; [eexists; now apply E|]. split; [reflexivity|].
  unfold bind at 1. rewrite (E img st Hs).
  rewrite (E (ImageOps_invert img) (after_apply img m st) Hs). cbn [fst].
  f_equal. unfold ImageOps_invert. cbn [size data].
  rewrite map_map. destruct img as [sz d]. cbn [size data]. f_equal.
  rewrite <- (map_id d) at 2. apply map_ext. intros v. lia.
Qed.

(** C9. [Identity] accepts every magnitude and returns the image it was
    given. *)
Theorem identity_returns_input (img : Image) (m : float) (st : PyState) :
  self st = Identity_default ->
  fst (__call__ img m st) = inr img /\
  random_count (snd (__call__ img m st)) = random_count st.
Proof.
  intros Hs.
  assert (__call__ img m st = (inr img, after_apply img m st)) as E.
  { rewrite call_cases. unfold delegate, mirror_enabled. rewrite Hs.
    cbn [magnitude_limit random_mirror Identity_default Base_init].
    assert (class (self st) = Identity) as Hc by now rewrite Hs.
    run_apply Hc. reflexivity. }
  rewrite E. split; reflexivity.
Qed.

End Transformations.

(** ** SolarizeAdd on integral magnitudes *)

Lemma forallb_Zrange (f : Z -> bool) (lo : Z) (n : nat) (z : Z) :
  forallb f (Zrange lo n) = true -> lo <= z < lo + Z.of_nat n -> f z = true.
Proof.
  intros H Hz. rewrite forallb_forall in H. apply H.
  unfold Zrange. apply in_map_iff.
  exists (Z.to_nat (z - lo)). split; [lia|].
  apply in_seq. lia.
Qed.

Lemma add_clamp_int_check_true :
  forallb add_clamp_int_row (Zrange 0 256) = true.
Proof. vm_compute. reflexivity. Qed.

(** For an integral magnitude the float pipeline computes the clamped
    integer sum: the addition does not wrap at 8 bits. *)
Lemma add_clamp_integral (v k : Z) :
  0 <= v <= 255 -> -512 <= k <= 512 ->
  add_clamp v (Float64.of_int k) = add_clamp_int v k.
Proof.
  intros Hv Hk.
  assert (0 <= v < 0 + Z.of_nat 256) as Hv' by lia.
  assert (-512 <= k < -512 + Z.of_nat 1025) as Hk' by lia.
  pose proof (forallb_Zrange add_clamp_int_row 0 256 v
                add_clamp_int_check_true Hv') as Hrow.
  apply Z.eqb_eq.
  exact (forallb_Zrange
           (fun k => add_clamp v (Float64.of_int k) =? add_clamp_int v k)
           (-512) 1025 k Hrow Hk').
Qed.

(** ** The operators of the catalog *)

Lemma ltb_leb (x y : float) :
  Float64.ltb x y = true -> Float64.leb x y = true.
Proof.
  unfold Float64.ltb, Float64.leb, SFltb, SFleb.
  destruct (SFcompare x y) as [[| |]|]; congruence.
Qed.

Section Catalog.

Context {pil : PIL}.

(** A call on an operator without range and without mirror is the
    transformation itself. *)
Lemma call_plain (img : Image) (m : float) (st : PyState) :
  magnitude_limit (self st) = None -> mirror_enabled (self st) = false ->
  __call__ img m st = _apply_transformation img m st.
Proof.
  intros Hl Hm. rewrite call_cases, Hl. unfold delegate. now rewrite Hm.
Qed.

(** C3, as amended. [Brightness] and [Sharpness] constructed with default
    arguments have the magnitude range [0.1, 1.9) and no sign mirror: the
    attribute [random_mirror] is [None], and a call with a magnitude of the
    range consumes no draw and hands that magnitude to the transformation. *)
Theorem brightness_sharpness_defaults
    (img : Image) (m : float) (st : PyState) :
  self st = Brightness_default \/ self st = Sharpness_default ->
  magnitude_limit (self st) = Some (f_0_1, f_1_9) /\
  random_mirror (self st) = None /\
  mirror_enabled (self st) = false /\
  (in_range f_0_1 m f_1_9 = true ->
   __call__ img m st = _apply_transformation img m st /\
   random_count (snd (__call__ img m st)) = random_count st /\
   applied (snd (__call__ img m st)) = (img, m) :: applied st).
Proof.
  intros Hs.
  assert (magnitude_limit (self st) = Some (f_0_1, f_1_9) /\
          random_mirror (self st) = None) as [Hl Hm].
  { destruct Hs as [-> | ->]; split; reflexivity. }
  assert (mirror_enabled (self st) = false) as Hoff.
  { unfold mirror_enabled. now rewrite Hm. }
  split; [exact Hl|]. split; [exact Hm|]. split; [exact Hoff|].
  intros Hin.
  assert (__call__ img m st = _apply_transformation img m st) as E.
  { rewrite call_cases, Hl, Hin. unfold delegate. now rewrite Hoff. }
  split; [exact E|]. rewrite E, apply_state. split; reflexivity.
Qed.

(** C6. [SolarizeAdd] has no range and no mirror, its threshold is the one
    given at construction (128 by default). Every channel value [v] of the
    image becomes [add_clamp v m] - the sum with [m], clamped to [0, 255]
    and cast to 8 bits - and the image so obtained is solarized with the
    threshold. For an integral magnitude the clamped value is that of the
    integer sum, which does not wrap at 8 bits: 250 with magnitude 20 becomes
    255, not 14. *)
Theorem solarize_add_clamps
    (img : Image) (m : float) (threshold : Z) (st : PyState) :
  self st = SolarizeAdd_init threshold ->
  fst (__call__ img m st) =
    inr (ImageOps_solarize
           (mkImage (size img) (map (fun v => add_clamp v m) (data img)))
           (PyInt threshold)) /\
  Forall (fun v => 0 <= v <= 255) (map (fun v => add_clamp v m) (data img)) /\
  (forall v k, 0 <= v <= 255 -> -512 <= k <= 512 ->
     add_clamp v (Float64.of_int k) = Z.min (Z.max (v + k) 0) 255) /\
  add_clamp 250 f_20 = 255 /\
  add_wrap8 250 20 = 14 /\
  SolarizeAdd_default = SolarizeAdd_init 128.
Proof.
  intros Hs. split; [|split; [|split; [|repeat split]]].
  - rewrite call_plain by (now rewrite Hs).
    assert (class (self st) = SolarizeAdd threshold) as Hc by now rewrite Hs.
    run_apply Hc. unfold ret. cbn [fst].
    now rewrite solarize_add_pipeline.
  - apply Forall_forall. intros z Hz. apply in_map_iff in Hz.
    destruct Hz as (v & <- & _). apply add_clamp_8bit.
  - intros v k Hv Hk. now apply add_clamp_integral.
Qed.

(** C7, as amended. [Posterize] validates nothing. For every finite
    magnitude [m] it asks the image library for [max(1, floor(m))] bits per
    channel, a number that is at least 1 (for [m = 0.5] it is 1 although
    [int(0.5)] is 0); the call returns the image reduced to that many bits
    when the number is at most 8 and fails inside the library otherwise.
    For NaN and for an infinite magnitude the call fails in [int(m)]. *)
Theorem posterize_at_least_one_bit
    (img : Image) (m : float) (st : PyState) :
  self st = Posterize_default ->
  (Float64.is_finite m = true ->
   exists bits,
     posterize_bits_spec m = Some bits /\ 1 <= bits /\
     fst (__call__ img m st) =
       (if bits <=? 8 then inr (posterize_pixels img bits)
        else inl TypeError_posterize_bits)) /\
  (Float64.is_finite m = false ->
   fst (__call__ img m st) =
     inl (if Float64.is_nan m then ValueError_int_of_nan
          else OverflowError_int_of_inf)) /\
  posterize_bits_spec f_0_5 = Some 1 /\
  Float64.trunc f_0_5 = Some 0.
Proof.
  intros Hs.
  assert (fst (__call__ img m st) =
          match Float64.trunc m with
          | None => inl (if Float64.is_nan m then ValueError_int_of_nan
                         else OverflowError_int_of_inf)
          | Some k =>
              if Z.max 1 k <=? 8 then inr (posterize_pixels img (Z.max 1 k))
              else inl TypeError_posterize_bits
          end) as E.
  { rewrite call_plain by (now rewrite Hs).
    apply apply_posterize. now rewrite Hs. }
  split; [|split; [|split; [|reflexivity]]].
  - intros Hf. destruct (posterize_bits m Hf) as (k & Hk & Hspec & Hge).
    exists (Z.max 1 k). split; [exact Hspec|]. split; [exact Hge|].
    rewrite E, Hk. reflexivity.
  - intros Hf. rewrite E. destruct m; try discriminate Hf; reflexivity.
  - destruct (posterize_bits f_0_5 eq_refl) as (k & Hk & Hspec & _).
    rewrite Hspec. cbn in Hk. now injection Hk as <-.
Qed.

(** C10. The range of [TranslateXAbs] and [TranslateYAbs] is [0, 10) and
    their mirror is on by default: a magnitude [m] with [0 < m < 10] passes
    the validation, and whenever the draw is above 0.5 the transformation is
    entered with [-m], which the range does not contain. Such draws exist
    in [0, 1). *)
Theorem mirror_leaves_range (img : Image) (m : float) (st : PyState) :
  self st = TranslateXAbs_default \/ self st = TranslateYAbs_default ->
  Float64.ltb f_0 m = true -> Float64.ltb m f_10 = true ->
  out_of_limit (self st) m = false /\
  (Float64.ltb f_0_5 (next_draw st) = true ->
   __call__ img m st =
     _apply_transformation img (Float64.neg m) (after_draw st) /\
   applied (snd (__call__ img m st)) = (img, Float64.neg m) :: applied st /\
   in_range f_0 (Float64.neg m) f_10 = false /\
   out_of_limit (self st) (Float64.neg m) = true) /\
  (exists r, in_range f_0 r f_1 = true /\ Float64.ltb f_0_5 r = true).
Proof.
  intros Hs H0 H10.
  assert (magnitude_limit (self st) = Some (f_0, f_10) /\
          random_mirror (self st) = Some true) as [Hl Hm].
  { destruct Hs as [-> | ->]; split; reflexivity. }
  assert (in_range f_0 m f_10 = true) as Hin.
  { unfold in_range. now rewrite (ltb_leb _ _ H0), H10. }
  assert (in_range f_0 (Float64.neg m) f_10 = false) as Hout.
  { unfold in_range. now rewrite (neg_of_positive _ H0). }
  assert (out_of_limit (self st) m = false) as Hok.
  { unfold out_of_limit. now rewrite Hl, Hin. }
  split; [exact Hok|]. split.
  - intros Hr.
    pose proof (call_mirror_on img m st Hm Hok) as E.
    unfold mirrored in E. rewrite Hr in E.
    split; [exact E|]. split; [now rewrite E, apply_state|].
    split; [exact Hout|].
    unfold out_of_limit. now rewrite Hl, Hout.
  - exists f_0_75. split; reflexivity.
Qed.

End Catalog.

(** ** The properties at concrete inputs *)



Lemma out_of_range_raises_first_witness :
  magnitude_limit (self (fresh TranslateXAbs_default f_0_75)) =
    Some (f_0, f_10) /\
  in_range f_0 f_10 f_10 = false /\
  __call__ img_2x1 f_10 (fresh TranslateXAbs_default f_0_75) =
    (inl (ValueError_magnitude f_0 f_10 f_10),
     fresh TranslateXAbs_default f_0_75).
Proof.
  split; [reflexivity|]. split; [reflexivity|].
  apply (out_of_range_raises_first img_2x1 f_10 f_0 f_10
           (fresh TranslateXAbs_default f_0_75)); reflexivity.
Defined.

(** C3 as first stated fails: the mirror of [Brightness] and of [Sharpness]
    is not on, and with a draw of 0.75 the transformation is entered with the
    magnitude 1 itself, no draw consumed. *)
Lemma brightness_sharpness_mirror_off :
  random_mirror Brightness_default <> Some true /\
  random_mirror Sharpness_default <> Some true /\
  snd (__call__ img_2x1 f_1 (fresh Brightness_default f_0_75)) =
    mkState Brightness_default (fun _ => f_0_75) 0 [(img_2x1, f_1)] /\
  snd (__call__ img_2x1 f_1 (fresh Sharpness_default f_0_75)) =
    mkState Sharpness_default (fun _ => f_0_75) 0 [(img_2x1, f_1)].
Proof. repeat split; discriminate. Qed.

Lemma brightness_sharpness_defaults_witness :
  self (fresh Brightness_default f_0_75) = Brightness_default /\
  in_range f_0_1 f_1 f_1_9 = true /\
  random_count
    (snd (__call__ img_2x1 f_1 (fresh Brightness_default f_0_75))) = 0%nat.
Proof.
  split; [reflexivity|]. split; [reflexivity|].
  apply (proj1 (proj2 (proj2 (proj2 (proj2
           (brightness_sharpness_defaults img_2x1 f_1
              (fresh Brightness_default f_0_75) (or_introl eq_refl)))) eq_refl))).
Defined.

Lemma mirror_one_draw_witness :
  random_mirror (self (fresh ShearX_default f_0_75)) = Some true /\
  out_of_limit (self (fresh ShearX_default f_0_75)) f_0_1 = false /\
  applied (snd (__call__ img_2x1 f_0_1 (fresh ShearX_default f_0_75))) =
    [(img_2x1, Float64.neg f_0_1)].
Proof.
  split; [reflexivity|]. split; [reflexivity|].
  apply (proj1 (proj2 (proj2
           (mirror_one_draw img_2x1 f_0_1 (fresh ShearX_default f_0_75)
              eq_refl eq_refl)))).
Defined.

Lemma translate_coefficients_witness :
  class (self (fresh TranslateX_default f_0_25)) = TranslateX /\
  fst (size img_100x1) = 100 /\
  fst (_apply_transformation img_100x1 f_0_1
         (fresh TranslateX_default f_0_25)) =
  inr (Image_transform img_100x1 (size img_100x1)
         (PyInt 1, PyInt 0, PyFloat f_10, PyInt 0, PyInt 1, PyInt 0)).
Proof.
  split; [reflexivity|]. split; [reflexivity|].
  apply (proj1 (proj2 (proj2 (proj2 (proj2
           (translate_coefficients img_100x1 f_0_1
              (fresh TranslateX_default f_0_25))))))); reflexivity.
Defined.

Lemma solarize_add_clamps_witness :
  self (fresh SolarizeAdd_default f_0_25) = SolarizeAdd_init 128 /\
  fst (__call__ img_2x1 f_20 (fresh SolarizeAdd_default f_0_25)) =
    inr (ImageOps_solarize
           (mkImage (2, 1) [add_clamp 250 f_20; add_clamp 100 f_20])
           (PyInt 128)).
Proof.
  split; [reflexivity|].
  apply (proj1 (solarize_add_clamps img_2x1 f_20 128
                  (fresh SolarizeAdd_default f_0_25) eq_refl)).
Defined.

(** C7 as first stated fails for a magnitude that is not finite, and the
    bits are not reduced beyond 8: the default [Posterize] fails in
    [int(m)] at NaN and inside the image library at the magnitude 9. *)
Lemma posterize_rejects_nan_and_nine_bits :
  fst (__call__ img_2x1 f_nan (fresh Posterize_default f_0_25)) =
    inl ValueError_int_of_nan /\
  fst (__call__ img_2x1 f_inf (fresh Posterize_default f_0_25)) =
    inl OverflowError_int_of_inf /\
  posterize_bits_spec f_9 = Some 9 /\
  fst (__call__ img_2x1 f_9 (fresh Posterize_default f_0_25)) =
    inl TypeError_posterize_bits.
Proof. repeat split. Qed.

Lemma posterize_at_least_one_bit_witness :
  self (fresh Posterize_default f_0_25) = Posterize_default /\
  Float64.is_finite f_0_5 = true /\
  exists bits,
    posterize_bits_spec f_0_5 = Some bits /\ 1 <= bits /\
    fst (__call__ img_2x1 f_0_5 (fresh Posterize_default f_0_25)) =
      (if bits <=? 8 then inr (posterize_pixels img_2x1 bits)
       else inl TypeError_posterize_bits).
Proof.
  split; [reflexivity|]. split; [reflexivity|].
  apply (proj1 (posterize_at_least_one_bit img_2x1 f_0_5
                  (fresh Posterize_default f_0_25) eq_refl) eq_refl).
Defined.

Lemma invert_involutive_witness :
  self (fresh Invert_default f_0_25) = Invert_default /\
  fst ((x <- __call__ img_2x1 f_5 ;; __call__ x f_5)
         (fresh Invert_default f_0_25)) = inr img_2x1.
Proof.
  split; [reflexivity|].
  apply (proj2 (proj2
           (invert_involutive img_2x1 f_5 (fresh Invert_default f_0_25)
              eq_refl))).
Defined.

Lemma identity_returns_input_witness :
  self (fresh Identity_default f_0_75) = Identity_default /\
  fst (__call__ img_2x1 f_5 (fresh Identity_default f_0_75)) = inr img_2x1.
Proof.
  split; [reflexivity|].
  apply (proj1 (identity_returns_input img_2x1 f_5
                  (fresh Identity_default f_0_75) eq_refl)).
Defined.

Lemma mirror_leaves_range_witness :
  self (fresh TranslateXAbs_default f_0_75) = TranslateXAbs_default /\
  Float64.ltb f_0 f_5 = true /\ Float64.ltb f_5 f_10 = true /\
  Float64.ltb f_0_5 (next_draw (fresh TranslateXAbs_default f_0_75)) = true /\
  applied (snd (__call__ img_2x1 f_5 (fresh TranslateXAbs_default f_0_75))) =
    [(img_2x1, Float64.neg f_5)].
Proof.
  split; [reflexivity|]. split; [reflexivity|]. split; [reflexivity|].
  split; [reflexivity|].
  apply (proj1 (proj2 (proj1 (proj2
           (mirror_leaves_range img_2x1 f_5
              (fresh TranslateXAbs_default f_0_75)
              (or_introl eq_refl) eq_refl eq_refl)) eq_refl))).
Defined.

(** ** Further properties of the dispatch routine *)

(** Comparing the negations is comparing the other way round. *)
Lemma SFcompare_opp (x y : float) :
  SFcompare (SFopp x) (SFopp y) = SFcompare y x.
Proof.
  destruct x as [s1| s1| |s1 m1 e1], y as [s2| s2| |s2 m2 e2]; cbn;
    try reflexivity;
    try (destruct s1; reflexivity); try (destruct s2; reflexivity);
    try (destruct s1, s2; reflexivity).
  rewrite (Z.compare_antisym e1 e2).
  assert (Pos.compare_cont Eq m2 m1 = CompOpp (Pos.compare_cont Eq m1 m2))
    as -> by (symmetry; apply (Pos.compare_cont_antisym m1 m2 Eq)).
  destruct s1, s2; cbn; try reflexivity;
    destruct (e1 ?= e2); cbn; try reflexivity;
    now destruct (Pos.compare_cont Eq m1 m2).
Qed.

Lemma neg_involutive (x : float) : Float64.neg (Float64.neg x) = x.
Proof. destruct x as [s| s| |s m e]; cbn; now rewrite ?negb_involutive. Qed.

(** A magnitude inside a range is not NaN, and it is finite when both
    bounds are. *)
Lemma in_range_finite (lo m hi : float) :
  in_range lo m hi = true ->
  Float64.is_nan m = false /\
  (Float64.is_finite lo = true -> Float64.is_finite hi = true ->
   Float64.is_finite m = true).
Proof.
  unfold in_range. intros H. apply andb_true_iff in H. destruct H as [Hl Hh].
  destruct m as [s| s| |s p e]; cbn.
  - split; [reflexivity|auto].
  - split; [reflexivity|]. intros Flo Fhi. destruct s.
    + destruct lo as [s| s| |s p e]; try discriminate; destruct s; discriminate.
    + destruct hi as [s| s| |s p e]; try discriminate; destruct s; discriminate.
  - destruct lo; discriminate.
  - split; [reflexivity|auto].
Qed.

Section DispatchFootprint.

Context {pil : PIL}.

(** X1. Whatever the operator, the image and the magnitude, a call leaves
    the operator and the generator's sequence as they are, consumes one
    draw exactly when the magnitude is accepted and the mirror is on (none
    otherwise), and enters the transformation exactly once when the
    magnitude is accepted (never otherwise), with the caller's image and
    the magnitude or its negation. *)
Theorem call_footprint (img : Image) (m : float) (st : PyState) :
  self (snd (__call__ img m st)) = self st /\
  random_draws (snd (__call__ img m st)) = random_draws st /\
  random_count (snd (__call__ img m st)) =
    (if negb (out_of_limit (self st) m) && mirror_enabled (self st)
     then S (random_count st) else random_count st) /\
  applied (snd (__call__ img m st)) =
    (if out_of_limit (self st) m then applied st
     else (img, delegated_magnitude st m) :: applied st) /\
  (delegated_magnitude st m = m \/ delegated_magnitude st m = Float64.neg m).
Proof.
  assert (delegated_magnitude st m = m \/
          delegated_magnitude st m = Float64.neg m) as Hd.
  { unfold delegated_magnitude, mirrored.
    destruct (mirror_enabled (self st)); [|now left].
    destruct (Float64.ltb f_0_5 (next_draw st)); [now right | now left]. }
  assert (snd (delegate img m st) =
          after_apply img (delegated_magnitude st m)
            (if mirror_enabled (self st) then after_draw st else st)) as Hdel.
  { unfold delegate, delegated_magnitude.
    destruct (mirror_enabled (self st)); apply apply_state. }
  rewrite call_cases. unfold out_of_limit.
  destruct (magnitude_limit (self st)) as [[lo hi]|];
    [destruct (in_range lo m hi)|]; cbn [negb andb snd];
    rewrite ?Hdel; destruct (mirror_enabled (self st)); cbn;
    repeat split; exact Hd.
Qed.

(** X2. An operator with a configured range rejects NaN and the positive
    infinity, whatever the bounds; and when both bounds are finite, every
    magnitude that reaches the transformation is finite. *)
Theorem range_filters_non_finite
    (img : Image) (m lo hi : float) (st : PyState) :
  magnitude_limit (self st) = Some (lo, hi) ->
  (Float64.is_nan m = true \/ m = f_inf ->
   fst (__call__ img m st) = inl (ValueError_magnitude lo m hi)) /\
  (Float64.is_finite lo = true -> Float64.is_finite hi = true ->
   raised_InvalidMagnitude (fst (__call__ img m st)) = false ->
   Float64.is_finite m = true /\
   Float64.is_finite (delegated_magnitude st m) = true).
Proof.
  intros Hl. split.
  - intros Hm. rewrite call_cases, Hl.
    assert (in_range lo m hi = false) as ->; [|reflexivity].
    destruct (in_range lo m hi) eqn:Hin; [|reflexivity].
    destruct (in_range_finite _ _ _ Hin) as [Hn _].
    destruct Hm as [Hm | ->]; [congruence|].
    unfold in_range in Hin. apply andb_true_iff in Hin.
    destruct Hin as [_ Hh]. destruct hi as [s| s| |s p e]; try discriminate;
      destruct s; discriminate.
  - intros Flo Fhi Hok. rewrite call_raises_iff in Hok.
    unfold out_of_limit in Hok. rewrite Hl in Hok.
    apply negb_false_iff in Hok.
    destruct (in_range_finite _ _ _ Hok) as [_ Hf].
    specialize (Hf Flo Fhi). split; [exact Hf|].
    unfold delegated_magnitude, mirrored.
    destruct (mirror_enabled (self st)); [|exact Hf].
    destruct (Float64.ltb f_0_5 (next_draw st)); [|exact Hf].
    destruct m; try discriminate; reflexivity.
Qed.


(** X4. [AutoContrast], [Invert], [Equalize], [Flip] and [Identity] do not
    read the magnitude: without a configured range, two calls that differ
    only in the magnitude return the same image, even with the mirror on. *)
Theorem magnitude_ignored (img : Image) (m1 m2 : float) (st : PyState) :
  ignores_magnitude (class (self st)) = true ->
  magnitude_limit (self st) = None ->
  fst (__call__ img m1 st) = fst (__call__ img m2 st) /\
  exists out, fst (__call__ img m1 st) = inr out.
Proof.
  intros Hc Hl. rewrite !call_cases, Hl. unfold delegate.
  destruct (mirror_enabled (self st));
    unfold _apply_transformation, bind, enter_apply, get_self, after_draw;
    cbn [self];
    destruct (class (self st)); try discriminate Hc;
    (split; [reflexivity | eexists; reflexivity]).
Qed.

End DispatchFootprint.

(** ** Mirror and symmetric ranges *)

Lemma SFcompare_antisym (x y : float) :
  SFcompare y x = option_map CompOpp (SFcompare x y).
Proof.
  destruct x as [s1| s1| |s1 m1 e1], y as [s2| s2| |s2 m2 e2]; cbn;
    try reflexivity;
    try (destruct s1; reflexivity); try (destruct s2; reflexivity);
    try (destruct s1, s2; reflexivity).
  rewrite (Z.compare_antisym e1 e2).
  assert (Pos.compare_cont Eq m2 m1 = CompOpp (Pos.compare_cont Eq m1 m2))
    as -> by (symmetry; apply (Pos.compare_cont_antisym m1 m2 Eq)).
  destruct s1, s2; cbn; try reflexivity;
    destruct (e1 ?= e2); cbn; try reflexivity;
    now destruct (Pos.compare_cont Eq m1 m2).
Qed.

Lemma eqb_sym (x y : float) : Float64.eqb x y = Float64.eqb y x.
Proof.
  unfold Float64.eqb, SFeqb. rewrite (SFcompare_antisym x y).
  now destruct (SFcompare x y) as [[| |]|].
Qed.

Lemma leb_neg (x y : float) :
  Float64.leb (Float64.neg x) (Float64.neg y) = Float64.leb y x.
Proof. unfold Float64.leb, Float64.neg, SFleb. now rewrite SFcompare_opp. Qed.

Lemma ltb_neg (x y : float) :
  Float64.ltb (Float64.neg x) (Float64.neg y) = Float64.ltb y x.
Proof. unfold Float64.ltb, Float64.neg, SFltb. now rewrite SFcompare_opp. Qed.

(** Below or equal, and not equal, is below. *)
Lemma ltb_of_leb (x y : float) :
  Float64.leb x y = true -> Float64.ltb x y = negb (Float64.eqb x y).
Proof.
  unfold Float64.leb, Float64.ltb, Float64.eqb, SFleb, SFltb, SFeqb.
  destruct (SFcompare x y) as [[| |]|]; cbn; congruence.
Qed.

(** The negation of a magnitude of the range [(-h, h)] lies between [-h]
    and [h], and is outside of the range exactly when the magnitude equals
    the lower bound. *)
Lemma in_symmetric_range_neg (m h : float) :
  in_range (Float64.neg h) m h = true ->
  Float64.leb (Float64.neg h) (Float64.neg m) = true /\
  Float64.leb (Float64.neg m) h = true /\
  in_range (Float64.neg h) (Float64.neg m) h =
    negb (Float64.eqb m (Float64.neg h)).
Proof.
  unfold in_range. intros H. apply andb_true_iff in H. destruct H as [Hl Hh].
  assert (Float64.leb (Float64.neg h) (Float64.neg m) = true) as H1.
  { rewrite leb_neg. now apply ltb_leb. }
  assert (Float64.leb (Float64.neg m) h = Float64.leb (Float64.neg h) m) as E2.
  { rewrite <- (neg_involutive h) at 1. apply leb_neg. }
  assert (Float64.ltb (Float64.neg m) h = Float64.ltb (Float64.neg h) m) as E3.
  { rewrite <- (neg_involutive h) at 1. apply ltb_neg. }
  split; [exact H1|]. split; [now rewrite E2|].
  rewrite H1, E3, (ltb_of_leb _ _ Hl), (eqb_sym m). reflexivity.
Qed.

Lemma binary_round_aux_neg (s : bool) (mx ex : Z) (lx : location) :
  binary_round_aux Float64.prec Float64.emax (negb s) mx ex lx =
  SFopp (binary_round_aux Float64.prec Float64.emax s mx ex lx).
Proof.
  unfold binary_round_aux.
  destruct (shr_fexp _ _ mx ex lx) as [mrs' e'].
  destruct (shr_fexp _ _ _ e' loc_Exact) as [mrs'' e''].
  destruct (shr_m mrs''); try reflexivity.
  now destruct (Z.leb _ _).
Qed.

(** The product with a negated factor is the negated product. *)
Lemma mul_neg_l (x y : float) :
  Float64.mul (Float64.neg x) y = Float64.neg (Float64.mul x y).
Proof.
  unfold Float64.mul, Float64.neg.
  destruct x as [s1| s1| |s1 m1 e1], y as [s2| s2| |s2 m2 e2]; cbn -[binary_round_aux];
    try reflexivity;
    try (now destruct s1, s2).
  rewrite <- binary_round_aux_neg. now destruct s1, s2.
Qed.

Section MirrorProperties.

Context {pil : PIL}.

(** X5. For an operator whose range is [(-h, h)], the magnitude handed to
    the transformation by an accepted call lies between [-h] and [h]; it is
    outside of the half-open range exactly when the mirror is on, the draw is
    above 0.5 and the magnitude equals the lower bound [-h]. *)
Theorem symmetric_range_mirror (m h : float) (st : PyState) :
  magnitude_limit (self st) = Some (Float64.neg h, h) ->
  out_of_limit (self st) m = false ->
  Float64.leb (Float64.neg h) (delegated_magnitude st m) = true /\
  Float64.leb (delegated_magnitude st m) h = true /\
  out_of_limit (self st) (delegated_magnitude st m) =
    mirror_enabled (self st) && Float64.ltb f_0_5 (next_draw st) &&
    Float64.eqb m (Float64.neg h).
Proof.
  intros Hl Hok. unfold out_of_limit in *. rewrite Hl in *.
  apply negb_false_iff in Hok.
  destruct (in_symmetric_range_neg m h Hok) as (N1 & N2 & N3).
  pose proof Hok as Hok'. unfold in_range in Hok'.
  apply andb_true_iff in Hok'. destruct Hok' as [P1 P2].
  unfold delegated_magnitude, mirrored.
  destruct (mirror_enabled (self st)); cbn [andb].
  - destruct (Float64.ltb f_0_5 (next_draw st)); cbn [andb].
    + rewrite N3, negb_involutive. auto.
    + rewrite Hok, P1, (ltb_leb _ _ P2). auto.
  - rewrite Hok, P1, (ltb_leb _ _ P2). auto.
Qed.

(** X6. Mirroring the magnitude of [TranslateX] or [TranslateY] mirrors the
    shift: the coefficient computed from [-m] is the negation of the one
    computed from [m], for every image size. *)
Theorem translate_mirror_antisymmetric
    (img : Image) (m : float) (st : PyState) :
  (class (self st) = TranslateX ->
   fst (_apply_transformation img (Float64.neg m) st) =
   inr (Image_transform img (size img)
          (PyInt 1, PyInt 0,
           PyFloat (Float64.neg
                      (Float64.mul m (Float64.of_int (fst (size img))))),
           PyInt 0, PyInt 1, PyInt 0))) /\
  (class (self st) = TranslateY ->
   fst (_apply_transformation img (Float64.neg m) st) =
   inr (Image_transform img (size img)
          (PyInt 1, PyInt 0, PyInt 0, PyInt 0, PyInt 1,
           PyFloat (Float64.neg
                      (Float64.mul m (Float64.of_int (snd (size img)))))))).
Proof.
  split; intros Hc; run_apply Hc; unfold ret; cbn [fst];
    now rewrite mul_neg_l.
Qed.

End MirrorProperties.

(** ** Clipping and the cast to 8 bits *)

Lemma digits2_pos_bound (m : positive) :
  Zpos m < 2 ^ Zpos (digits2_pos m).
Proof.
  induction m as [p IH|p IH|]; cbn [digits2_pos].
  - rewrite Pos2Z.inj_succ, Z.pow_succ_r by lia. lia.
  - rewrite Pos2Z.inj_succ, Z.pow_succ_r by lia. lia.
  - reflexivity.
Qed.

(** The mantissa of a well-formed binary64 value has at most 53 bits. *)
Lemma valid_mantissa_bound (s : bool) (m : positive) (e : Z) :
  Float64.valid (S754_finite s m e) = true -> Zpos m < 2 ^ 53.
Proof.
  unfold Float64.valid, SpecFloat.valid_binary, bounded, canonical_mantissa, fexp.
  intros H. apply andb_true_iff in H. destruct H as [H _].
  apply Z.eqb_eq in H.
  assert (Zpos (digits2_pos m) <= 53) as Hd.
  { unfold Float64.prec in H. lia. }
  pose proof (digits2_pos_bound m) as Hm.
  pose proof (Z.pow_le_mono_r 2 (Zpos (digits2_pos m)) 53 ltac:(lia) Hd).
  lia.
Qed.

(** X7. On a well-formed float that is not NaN, [np.clip(., 0, 255)]
    followed by the cast to [uint8] never wraps: the clipped value truncates
    to an integer of [0, 255], which is the result of the cast. It is 0 for
    a value that is not above 0, 255 for a value that is not below 255, and
    the truncation of the value in between. *)
Theorem clip_cast_no_wrap (x : float) :
  Float64.valid x = true -> Float64.is_nan x = false ->
  exists t,
    Float64.trunc (np.clip1 x 0 255) = Some t /\
    0 <= t <= 255 /\
    np.uint8_of_float (np.clip1 x 0 255) = t /\
    (Float64.ltb f_0 x = false -> t = 0) /\
    (Float64.ltb f_0 x = true -> Float64.ltb x f_255 = false -> t = 255) /\
    (Float64.ltb f_0 x = true -> Float64.ltb x f_255 = true ->
     Float64.trunc x = Some t).
Proof.
  intros Hv Hn.
  assert (forall c t, Float64.trunc c = Some t -> 0 <= t <= 255 ->
            np.uint8_of_float c = t) as Hcast.
  { intros c t Hc Ht. unfold np.uint8_of_float. rewrite Hc.
    apply Z.mod_small. lia. }
  unfold np.clip1.
  change (Float64.of_int 0) with f_0. change (Float64.of_int 255) with f_255.
  unfold np.max_. rewrite Hn.
  destruct (Float64.ltb f_0 x) eqn:H0.
  - unfold np.min_. rewrite Hn.
    destruct (Float64.ltb x f_255) eqn:H255.
    + destruct x as [s| s| |s m e]; try discriminate.
      * destruct s; discriminate.
      * destruct s; [discriminate|].
        pose proof (valid_mantissa_bound _ _ _ Hv) as Hm.
        assert (e < -45 \/ (e = -45 /\ Zpos m < 8972014882652160)) as He.
        { unfold Float64.ltb, SFltb, f_255 in H255. cbn [SFcompare] in H255.
          destruct (Z.compare_spec e (-45)) as [E|E|E]; try discriminate.
          - right. split; [exact E|].
            rewrite Pos.compare_cont_spec in H255.
            cbn [Pos.switch_Eq] in H255.
            destruct (Pos.compare_spec m 8972014882652160) as [Hp|Hp|Hp];
              try discriminate.
            apply Pos2Z.pos_lt_pos. exact Hp.
          - now left. }
        assert (0 <= Z.shiftl (Zpos m) e <= 255) as Hb.
        { clear - Hm He.
          rewrite Z.shiftl_div_pow2
            by (destruct He as [He|[He _]]; clear Hm; lia).
          assert (0 < 2 ^ (- e)) as Hp
            by (apply Z.pow_pos_nonneg; clear Hm; lia).
          split; [apply Z.div_pos; [clear; lia | exact Hp]|].
          apply Z.lt_succ_r. apply Z.div_lt_upper_bound; [exact Hp|].
          destruct He as [He | [-> Hlt]].
          - assert (2 ^ 46 <= 2 ^ (- e)) as Hpow
              by (apply Z.pow_le_mono_r; clear Hm Hp; lia).
            change (2 ^ 46) with 70368744177664 in Hpow.
            change (2 ^ 53) with 9007199254740992 in Hm. nia.
          - change (2 ^ (- -45)) with 35184372088832. clear Hm Hp. lia. }
        exists (Z.shiftl (Zpos m) e).
        assert (Float64.trunc (S754_finite false m e) =
                Some (Z.shiftl (Zpos m) e)) as Ht by reflexivity.
        split; [exact Ht|]. split; [exact Hb|].
        split; [exact (Hcast _ _ Ht Hb)|].
        split; [intros C; congruence|].
        split; [intros _ C; congruence|]. intros _ _. exact Ht.
    + assert (Float64.trunc f_255 = Some 255) as Ht by reflexivity.
      assert (0 <= 255 <= 255) as Hb by (clear; lia).
      exists 255. split; [exact Ht|]. split; [exact Hb|].
      split; [exact (Hcast _ _ Ht Hb)|].
      split; [intros C; congruence|].
      split; [reflexivity|]. intros _ C; congruence.
  - assert (Float64.trunc f_0 = Some 0) as Ht by reflexivity.
    assert (0 <= 0 <= 255) as Hb by (clear; lia).
    assert (Float64.ltb f_0 f_255 = true) as H1 by reflexivity.
    unfold np.min_. rewrite H1. cbn [Float64.is_nan f_0].
    exists 0. split; [exact Ht|]. split; [exact Hb|].
    split; [exact (Hcast _ _ Ht Hb)|].
    split; [reflexivity|].
    split; [intros C; congruence|]. intros C; congruence.
Qed.

(** ** SolarizeAdd at the edges, repeated calls, the catalog *)

Section MoreProperties.

Context {pil : PIL}.

(** A call of [SolarizeAdd]: solarize after the channelwise [add_clamp]. *)
Lemma solarize_add_call
    (img : Image) (m : float) (threshold : Z) (st : PyState) :
  self st = SolarizeAdd_init threshold ->
  fst (__call__ img m st) =
    inr (ImageOps_solarize
           (mkImage (size img) (map (fun v => add_clamp v m) (data img)))
           (PyInt threshold)).
Proof.
  intros Hs. rewrite call_plain by (now rewrite Hs).
  assert (class (self st) = SolarizeAdd threshold) as Hc by now rewrite Hs.
  run_apply Hc. unfold ret. cbn [fst]. now rewrite solarize_add_pipeline.
Qed.

(** X8. On an image of 8-bit channel values, [SolarizeAdd] with magnitude 0
    solarizes the image as it is; with an integral magnitude from 255 to 512
    it solarizes the all-255 image, and with one from -512 to -255 the all-0
    image: the sum saturates instead of wrapping. *)
Theorem solarize_add_edges
    (img : Image) (threshold k : Z) (st : PyState) :
  self st = SolarizeAdd_init threshold ->
  wf_image img ->
  fst (__call__ img f_0 st) = inr (ImageOps_solarize img (PyInt threshold)) /\
  (255 <= k <= 512 ->
   fst (__call__ img (Float64.of_int k) st) =
     inr (ImageOps_solarize
            (mkImage (size img) (map (fun _ => 255) (data img)))
            (PyInt threshold))) /\
  (-512 <= k <= -255 ->
   fst (__call__ img (Float64.of_int k) st) =
     inr (ImageOps_solarize
            (mkImage (size img) (map (fun _ => 0) (data img)))
            (PyInt threshold))).
Proof.
  intros Hs Hwf. unfold wf_image in Hwf. rewrite Forall_forall in Hwf.
  assert (forall j f, -512 <= j <= 512 ->
            (forall v, 0 <= v <= 255 -> add_clamp_int v j = f v) ->
            fst (__call__ img (Float64.of_int j) st) =
              inr (ImageOps_solarize (mkImage (size img) (map f (data img)))
                     (PyInt threshold))) as A.
  { intros j f Hj Hf. rewrite (solarize_add_call img _ threshold st Hs).
    do 3 f_equal. apply map_ext_in. intros v Hv.
    rewrite add_clamp_integral by (auto; lia). apply Hf. now apply Hwf. }
  split; [|split].
  - change f_0 with (Float64.of_int 0).
    rewrite (A 0 (fun v => v)).
    + rewrite map_id. now destruct img.
    + lia.
    + intros v Hv. unfold add_clamp_int. lia.
  - intros Hk. apply A; [lia|]. intros v Hv. unfold add_clamp_int. lia.
  - intros Hk. apply A; [lia|]. intros v Hv. unfold add_clamp_int. lia.
Qed.

(** Outside of [Posterize] the transformation returns an image. *)
Lemma apply_succeeds (img : Image) (d : float) (st : PyState) :
  class (self st) <> Posterize ->
  exists out, _apply_transformation img d st = (inr out, after_apply img d st).
Proof.
  intros Hc. unfold _apply_transformation, bind, enter_apply, get_self.
  cbn [self]. unfold after_apply.
  destruct (class (self st)); try (eexists; reflexivity). congruence.
Qed.

(** X9. Two calls in a row on an operator with the mirror on, both
    magnitudes accepted: each call consumes its own draw, the second call
    the draw after the first one's, and the second transformation receives
    the image that the first one returned. *)
Theorem two_calls_two_draws (img : Image) (m1 m2 : float) (st : PyState) :
  random_mirror (self st) = Some true ->
  out_of_limit (self st) m1 = false ->
  out_of_limit (self st) m2 = false ->
  class (self st) <> Posterize ->
  exists x y,
    fst (__call__ img m1 st) = inr x /\
    (a <- __call__ img m1 ;; __call__ a m2) st =
      (inr y,
       mkState (self st) (random_draws st) (S (S (random_count st)))
         ((x, mirrored (random_draws st (S (random_count st))) m2)
          :: (img, mirrored (random_draws st (random_count st)) m1)
          :: applied st)).
Proof.
  intros Hm H1 H2 Hc.
  pose proof (call_mirror_on img m1 st Hm H1) as E1.
  destruct (apply_succeeds img (mirrored (next_draw st) m1) (after_draw st) Hc)
    as (x & Ex).
  rewrite Ex in E1.
  set (st1 := after_apply img (mirrored (next_draw st) m1) (after_draw st)) in *.
  pose proof (call_mirror_on x m2 st1 Hm H2) as E2.
  destruct (apply_succeeds x (mirrored (next_draw st1) m2) (after_draw st1) Hc)
    as (y & Ey).
  rewrite Ey in E2.
  exists x, y. split; [now rewrite E1|].
  unfold bind. rewrite E1, E2. reflexivity.
Qed.

(** X10. The catalog of default operators. Every configured range has
    finite bounds [lo < hi], so that a call with [lo] is accepted and a call
    with [hi] is rejected; an operator without range has no mirror and its
    call is its transformation; an operator with the mirror on has a range
    [(-h, h)] or the range [(0, 10)]. *)
Theorem catalog_ranges (op : Operator) (img : Image) (st : PyState) :
  In op catalog -> self st = op ->
  match magnitude_limit op with
  | Some (lo, hi) =>
      Float64.ltb lo hi = true /\
      Float64.is_finite lo = true /\ Float64.is_finite hi = true /\
      raised_InvalidMagnitude (fst (__call__ img lo st)) = false /\
      raised_InvalidMagnitude (fst (__call__ img hi st)) = true /\
      (mirror_enabled op = true ->
       lo = Float64.neg hi \/ (lo, hi) = (f_0, f_10))
  | None =>
      mirror_enabled op = false /\
      forall m, __call__ img m st = _apply_transformation img m st
  end.
Proof.
  intros Hin Hs. unfold catalog in Hin. cbn [In] in Hin.
  repeat (destruct Hin as [<- | Hin]); try contradiction;
    cbn [magnitude_limit ShearX_default ShearY_default TranslateX_default
         TranslateY_default TranslateXAbs_default TranslateYAbs_default
         Rotate_default AutoContrast_default Invert_default Equalize_default
         Flip_default Solarize_default SolarizeAdd_default Posterize_default
         Contrast_default Color_default Brightness_default Sharpness_default
         Identity_default ShearX_init ShearY_init TranslateX_init
         TranslateY_init TranslateXAbs_init TranslateYAbs_init Rotate_init
         Solarize_init SolarizeAdd_init Contrast_init Color_init
         Brightness_init Sharpness_init Base_init];
    try (split; [reflexivity | intros m; apply call_plain; now rewrite Hs]);
    rewrite !call_raises_iff, Hs;
    (split; [reflexivity|]); (split; [reflexivity|]); (split; [reflexivity|]);
    (split; [reflexivity|]); (split; [reflexivity|]);
    intros Hmir; try discriminate Hmir; auto.
Qed.

End MoreProperties.

(** ** Integral magnitudes and the ranges with integer bounds *)

Lemma int_range_rows_true :
  forallb int_range_row [(0, 10); (-30, 30); (0, 256)] = true.
Proof. vm_compute. reflexivity. Qed.

Lemma in_range_integral (lo hi k : Z) :
  In (lo, hi) [(0, 10); (-30, 30); (0, 256)] -> -512 <= k <= 512 ->
  in_range (Float64.of_int lo) (Float64.of_int k) (Float64.of_int hi) =
  (lo <=? k) && (k <? hi).
Proof.
  intros Hin Hk.
  pose proof int_range_rows_true as H. rewrite forallb_forall in H.
  specialize (H (lo, hi) Hin).
  assert (-512 <= k < -512 + Z.of_nat 1025) as Hk' by lia.
  pose proof (forallb_Zrange _ (-512) 1025 k H Hk') as Hc.
  cbn [fst snd] in Hc. now apply Bool.eqb_prop.
Qed.

Section IntegralMagnitudes.

Context {pil : PIL}.

(** X11. [TranslateXAbs], [TranslateYAbs], [Rotate] and [Solarize] have
    default ranges written with integer bounds [(lo, hi)]. With an integral
    magnitude [k] from -512 to 512, given as a float, the call raises
    InvalidMagnitude exactly when [lo <= k < hi] fails on the integers. *)
Theorem integral_magnitudes
    (op : Operator) (lo hi k : Z) (img : Image) (st : PyState) :
  In (op, (lo, hi)) int_ranged_defaults ->
  self st = op ->
  -512 <= k <= 512 ->
  raised_InvalidMagnitude (fst (__call__ img (Float64.of_int k) st)) =
  negb ((lo <=? k) && (k <? hi)).
Proof.
  intros Hin Hs Hk. rewrite call_raises_iff, Hs.
  unfold int_ranged_defaults in Hin. cbn [In] in Hin.
  assert (magnitude_limit op = Some (Float64.of_int lo, Float64.of_int hi) /\
          In (lo, hi) [(0, 10); (-30, 30); (0, 256)]) as [Hl Hr].
  { repeat (destruct Hin as [Hin | Hin]); try contradiction;
      injection Hin as <- <- <-; (split; [reflexivity|]); cbn [In]; auto. }
  unfold out_of_limit. rewrite Hl. f_equal. now apply in_range_integral.
Qed.

End IntegralMagnitudes.

(** ** The further properties at concrete inputs *)

Lemma range_filters_non_finite_witness :
  magnitude_limit (self (fresh TranslateXAbs_default f_0_25)) =
    Some (f_0, f_10) /\
  Float64.is_nan f_nan = true /\
  fst (__call__ img_2x1 f_nan (fresh TranslateXAbs_default f_0_25)) =
    inl (ValueError_magnitude f_0 f_nan f_10).
Proof.
  split; [reflexivity|]. split; [reflexivity|].
  apply (proj1 (range_filters_non_finite img_2x1 f_nan f_0 f_10
                  (fresh TranslateXAbs_default f_0_25) eq_refl)).
  left. reflexivity.
Defined.


Lemma magnitude_ignored_witness :
  ignores_magnitude (class (self (fresh Flip_default f_0_25))) = true /\
  magnitude_limit (self (fresh Flip_default f_0_25)) = None /\
  fst (__call__ img_2x1 f_5 (fresh Flip_default f_0_25)) =
  fst (__call__ img_2x1 f_nan (fresh Flip_default f_0_25)).
Proof.
  split; [reflexivity|]. split; [reflexivity|].
  apply (proj1 (magnitude_ignored img_2x1 f_5 f_nan
                  (fresh Flip_default f_0_25) eq_refl eq_refl)).
Defined.

(** [ShearX] with the lower bound -0.3 and a draw of 0.75: the
    transformation receives 0.3, the excluded upper bound. *)
Lemma symmetric_range_mirror_witness :
  magnitude_limit (self (fresh ShearX_default f_0_75)) =
    Some (Float64.neg f_0_3, f_0_3) /\
  out_of_limit (self (fresh ShearX_default f_0_75)) (Float64.neg f_0_3)
    = false /\
  out_of_limit (self (fresh ShearX_default f_0_75))
    (delegated_magnitude (fresh ShearX_default f_0_75) (Float64.neg f_0_3))
    = true.
Proof.
  split; [reflexivity|]. split; [reflexivity|].
  apply (proj2 (proj2
           (symmetric_range_mirror (Float64.neg f_0_3) f_0_3
              (fresh ShearX_default f_0_75) eq_refl eq_refl))).
Defined.

Lemma translate_mirror_antisymmetric_witness :
  class (self (fresh TranslateX_default f_0_25)) = TranslateX /\
  fst (_apply_transformation img_100x1 (Float64.neg f_0_1)
         (fresh TranslateX_default f_0_25)) =
  inr (Image_transform img_100x1 (size img_100x1)
         (PyInt 1, PyInt 0, PyFloat (Float64.neg f_10),
          PyInt 0, PyInt 1, PyInt 0)).
Proof.
  split; [reflexivity|].
  apply (proj1 (translate_mirror_antisymmetric img_100x1 f_0_1
                  (fresh TranslateX_default f_0_25))); reflexivity.
Defined.

(** 250 + 20 = 270 is clipped to 255. *)
Lemma clip_cast_no_wrap_witness :
  Float64.valid (Float64.add (Float64.of_int 250) f_20) = true /\
  Float64.is_nan (Float64.add (Float64.of_int 250) f_20) = false /\
  exists t,
    Float64.trunc
      (np.clip1 (Float64.add (Float64.of_int 250) f_20) 0 255) = Some t /\
    0 <= t <= 255.
Proof.
  split; [reflexivity|]. split; [reflexivity|].
  destruct (clip_cast_no_wrap (Float64.add (Float64.of_int 250) f_20)
              eq_refl eq_refl) as (t & Ht & Hb & _).
  exists t. split; [exact Ht | exact Hb].
Defined.

Lemma wf_img_2x1 : wf_image img_2x1.
Proof. repeat constructor; cbn; lia. Defined.

Lemma solarize_add_edges_witness :
  self (fresh SolarizeAdd_default f_0_25) = SolarizeAdd_init 128 /\
  wf_image img_2x1 /\
  fst (__call__ img_2x1 f_0 (fresh SolarizeAdd_default f_0_25)) =
    inr (ImageOps_solarize img_2x1 (PyInt 128)).
Proof.
  split; [reflexivity|]. split; [exact wf_img_2x1|].
  apply (proj1 (solarize_add_edges img_2x1 128 0
                  (fresh SolarizeAdd_default f_0_25) eq_refl wf_img_2x1)).
Defined.

Lemma two_calls_two_draws_witness :
  random_mirror (self (fresh ShearX_default f_0_75)) = Some true /\
  out_of_limit (self (fresh ShearX_default f_0_75)) f_0_1 = false /\
  class (self (fresh ShearX_default f_0_75)) <> Posterize /\
  exists x y,
    fst (__call__ img_2x1 f_0_1 (fresh ShearX_default f_0_75)) = inr x /\
    (a <- __call__ img_2x1 f_0_1 ;; __call__ a f_0_1)
      (fresh ShearX_default f_0_75) =
      (inr y,
       mkState ShearX_default (fun _ => f_0_75) 2
         [(x, mirrored f_0_75 f_0_1); (img_2x1, mirrored f_0_75 f_0_1)]).
Proof.
  split; [reflexivity|]. split; [reflexivity|]. split; [discriminate|].
  apply (two_calls_two_draws img_2x1 f_0_1 f_0_1
           (fresh ShearX_default f_0_75) eq_refl eq_refl eq_refl).
  discriminate.
Defined.

Lemma catalog_ranges_witness :
  In Rotate_default catalog /\
  self (fresh Rotate_default f_0_25) = Rotate_default /\
  raised_InvalidMagnitude
    (fst (__call__ img_2x1 f_30 (fresh Rotate_default f_0_25))) = true.
Proof.
  split; [cbn; auto 10|]. split; [reflexivity|].
  apply (proj1 (proj2 (proj2 (proj2 (proj2
           (catalog_ranges Rotate_default img_2x1
              (fresh Rotate_default f_0_25)
              ltac:(cbn; auto 10) eq_refl)))))).
Defined.

Lemma integral_magnitudes_witness :
  In (Solarize_default, (0, 256)) int_ranged_defaults /\
  self (fresh Solarize_default f_0_25) = Solarize_default /\
  -512 <= 255 <= 512 /\
  raised_InvalidMagnitude
    (fst (__call__ img_2x1 (Float64.of_int 255)
            (fresh Solarize_default f_0_25))) = false.
Proof.
  split; [cbn; auto 10|]. split; [reflexivity|]. split; [lia|].
  apply (integral_magnitudes Solarize_default 0 256 255 img_2x1
           (fresh Solarize_default f_0_25)
           ltac:(cbn; auto 10) eq_refl ltac:(lia)).
Defined.
